(** * The front-end bootstrap [main.jsx]

    [src/advanced_mcp_exercise/frontend/src/main.jsx] is a module whose body
    is a straight line of calls into the platform: the module loader, the
    Stytch SDK, the DOM and React.  The module body is embedded as a program
    over those calls ([Bootstrap.main]); what the platform does with a call
    is a handler, either arbitrary ([Handler]) or the reference browser of
    [Module Browser]. *)

From Stdlib Require Import List String Bool Arith Lia.
Import ListNotations.
Open Scope string_scope.
Open Scope list_scope.

Set Warnings "-register-all".

(** ** Values that cross the platform boundary *)

(** The option bag the SDK constructor accepts as an optional second
    argument. *)
Definition StytchOptions := list (string * string).

(** The object returned by [createStytchUIClient]. *)
Record StytchClient := mkClient {
  client_token : string;
  client_options : option StytchOptions
}.

(** Components named by the imports of [main.jsx]. *)
Inductive Component := StrictMode | StytchProvider | App.

Inductive PropValue :=
| PClient (c : StytchClient)
| PString (s : string).

(** A JSX expression [<type props>children</type>]. *)
Inductive ReactElement :=
| Jsx (type : Component) (props : list (string * PropValue))
      (children : list ReactElement).

Definition element_type (e : ReactElement) : Component :=
  match e with Jsx c _ _ => c end.

Definition element_props (e : ReactElement) : list (string * PropValue) :=
  match e with Jsx _ ps _ => ps end.

Definition element_children (e : ReactElement) : list ReactElement :=
  match e with Jsx _ _ kids => kids end.

(** Every component of a tree, outermost first. *)
Fixpoint components (e : ReactElement) : list Component :=
  match e with
  | Jsx c _ kids => c :: flat_map components kids
  end.

(** The components that lie below a [StrictMode] element: the ones React
    would render under strict-mode rules. *)
Fixpoint strict_components (e : ReactElement) : list Component :=
  match e with
  | Jsx StrictMode _ kids => flat_map components kids
  | Jsx _ _ kids => flat_map strict_components kids
  end.

(** ** The document *)

Module Dom.

(** An element is addressed by the child indices leading to it from the
    document. *)
Definition Path := list nat.

Inductive Node :=
| Element (tag : string) (id : option string) (children : list Node)
| Text (data : string)
| Rendered (e : ReactElement).

Definition Document := list Node.

Definition has_id (i : string) (id : option string) : bool :=
  match id with
  | Some j => String.eqb j i
  | None => false
  end.

Section FirstChild.
Variable A : Type.
Variable f : A -> option Path.

(** The first child, from index [k] on, in which [f] finds something. *)
Fixpoint first_child (k : nat) (l : list A) : option Path :=
  match l with
  | [] => None
  | c :: l' =>
      match f c with
      | Some p => Some (k :: p)
      | None => first_child (S k) l'
      end
  end.
End FirstChild.
Arguments first_child {A} f k l.

(** Tree-order search below and including [n]. *)
Fixpoint find_in (i : string) (n : Node) : option Path :=
  match n with
  | Element _ nid kids =>
      if has_id i nid then Some [] else first_child (find_in i) 0 kids
  | Text _ => None
  | Rendered _ => None
  end.

(** [document.getElementById(i)]: the first element in tree order whose id
    is [i], or [None] for JavaScript's [null]. *)
Definition getElementById (d : Document) (i : string) : option Path :=
  first_child (find_in i) 0 d.

(** The ids carried by the elements of a subtree, in tree order. *)
Fixpoint ids (n : Node) : list string :=
  match n with
  | Element _ nid kids =>
      match nid with Some j => [j] | None => [] end ++ flat_map ids kids
  | Text _ => []
  | Rendered _ => []
  end.

Definition document_ids (d : Document) : list string := flat_map ids d.

Fixpoint node_at (l : list Node) (p : Path) : option Node :=
  match p with
  | [] => None
  | k :: q =>
      match nth_error l k with
      | None => None
      | Some n =>
          match q with
          | [] => Some n
          | _ :: _ =>
              match n with
              | Element _ _ kids => node_at kids q
              | _ => None
              end
          end
      end
  end.

(** The node reached from [n] along [q]. *)
Definition descend (n : Node) (q : Path) : option Node :=
  match q with
  | [] => Some n
  | _ :: _ =>
      match n with
      | Element _ _ kids => node_at kids q
      | _ => None
      end
  end.

Definition is_element (n : option Node) : bool :=
  match n with
  | Some (Element _ _ _) => true
  | _ => false
  end.

Fixpoint list_set {A : Type} (k : nat) (x : A) (l : list A) : list A :=
  match l, k with
  | [], _ => []
  | _ :: l', 0 => x :: l'
  | y :: l', S k' => y :: list_set k' x l'
  end.

(** The document in which the element at [p] has [new] as its children;
    the document itself when [p] addresses no element. *)
Fixpoint replace_children (l : list Node) (p : Path) (new : list Node)
  : list Node :=
  match p with
  | [] => l
  | k :: q =>
      match nth_error l k with
      | Some (Element t i kids) =>
          match q with
          | [] => list_set k (Element t i new) l
          | _ :: _ => list_set k (Element t i (replace_children kids q new)) l
          end
      | _ => l
      end
  end.

(** [p] and [q] address nodes neither of which lies inside the other. *)
Fixpoint apart (p q : Path) : Prop :=
  match p, q with
  | j :: p', k :: q' => j <> k \/ (j = k /\ apart p' q')
  | _, _ => False
  end.

End Dom.

(** ** Programs over platform calls *)

Module Platform.
Import Dom.

(** What an import declaration binds: [import { x } from m] or
    [import x from m]. *)
Inductive Binding :=
| Named (name : string)
| Default (name : string).

(** The object returned by [createRoot]. *)
Record Root := mkRoot { container : Path }.

(** A thrown JavaScript value. *)
Inductive Exn := JsError (name message : string).

Inductive PlatformCall :=
| Import (specifier : string) (bindings : list Binding)
| CreateStytchUIClient (public_token : string) (options : option StytchOptions)
| GetElementById (id : string)
| CreateRoot (target : option Path)
| Render (root : Root) (tree : ReactElement)
| ReadEnv (key : string)
| ReadArgv
| ReadFile (path : string).

(** The type of value a call returns to the program. *)
Definition answer (c : PlatformCall) : Type :=
  match c with
  | Import _ _ => unit
  | CreateStytchUIClient _ _ => StytchClient
  | GetElementById _ => option Path
  | CreateRoot _ => Root
  | Render _ _ => unit
  | ReadEnv _ => option string
  | ReadArgv => list string
  | ReadFile _ => option string
  end.

(** The last three calls are how a program reads the process it runs in:
    an environment variable, the command line, a file.  [main.jsx] makes
    none of them. *)

(** A program returns, makes a call and continues with its answer, or
    guards a body with a handler (JavaScript's [try]/[catch], which
    [main.jsx] never uses). *)
Inductive Prog (R : Type) : Type :=
| Ret (r : R)
| Do (c : PlatformCall) (k : answer c -> Prog R)
| Try (body : Prog R) (recover : Exn -> Prog R).
Arguments Ret {R} r.
Arguments Do {R} c k.
Arguments Try {R} body recover.

Declare Scope prog_scope.
Delimit Scope prog_scope with prog.
Notation "x <- c ;; k" := (Do c (fun x => k))
  (at level 61, c at next level, right associativity) : prog_scope.
Notation "c ;; k" := (Do c (fun _ => k))
  (at level 61, right associativity) : prog_scope.

(** A platform: each call, in a world, throws or answers and leaves a new
    world. *)
Definition Handler (W : Type) : Type :=
  forall c : PlatformCall, W -> Exn + (answer c * W).

Record Outcome (W R : Type) := mkOutcome {
  calls : list PlatformCall;   (* the calls made, in order *)
  final : W;                   (* the world the run ends in *)
  result : Exn + R             (* the uncaught exception, or the value *)
}.
Arguments mkOutcome {W R} calls final result.
Arguments calls {W R} o.
Arguments final {W R} o.
Arguments result {W R} o.

Fixpoint run {W R : Type} (h : Handler W) (p : Prog R) (w : W)
  : Outcome W R :=
  match p with
  | Ret r => mkOutcome [] w (inr r)
  | Do c k =>
      match h c w with
      | inl e => mkOutcome [c] w (inl e)
      | inr (a, w') =>
          let o := run h (k a) w' in
          mkOutcome (c :: calls o) (final o) (result o)
      end
  | Try body recover =>
      let o := run h body w in
      match result o with
      | inl e =>
          let o' := run h (recover e) (final o) in
          mkOutcome (calls o ++ calls o') (final o') (result o')
      | inr _ => o
      end
  end.

(** The world after making the calls [cs] one after the other, or the
    exception of the first that throws. *)
Fixpoint replay {W : Type} (h : Handler W) (cs : list PlatformCall) (w : W)
  : Exn + W :=
  match cs with
  | [] => inr w
  | c :: cs' =>
      match h c w with
      | inl e => inl e
      | inr (_, w') => replay h cs' w'
      end
  end.

(** A program with no handler anywhere in it. *)
Inductive catch_free {R : Type} : Prog R -> Prop :=
| catch_free_ret (r : R) : catch_free (Ret r)
| catch_free_do (c : PlatformCall) (k : answer c -> Prog R) :
    (forall a, catch_free (k a)) -> catch_free (Do c k).

Definition prefix_of {A : Type} (l m : list A) : Prop :=
  exists rest, m = l ++ rest.

Definition is_render (c : PlatformCall) : bool :=
  match c with Render _ _ => true | _ => false end.

Definition is_client_creation (c : PlatformCall) : bool :=
  match c with CreateStytchUIClient _ _ => true | _ => false end.

(** The calls into code that [main.jsx] imports rather than into the DOM
    or React: evaluating a module and constructing the client. *)
Definition is_library_call (c : PlatformCall) : bool :=
  match c with
  | Import _ _ => true
  | CreateStytchUIClient _ _ => true
  | _ => false
  end.

Definition reads_process (c : PlatformCall) : bool :=
  match c with
  | ReadEnv _ => true
  | ReadArgv => true
  | ReadFile _ => true
  | _ => false
  end.

(** A program that never asks for the environment, the command line or a
    file. *)
Inductive process_blind {R : Type} : Prog R -> Prop :=
| process_blind_ret (r : R) : process_blind (Ret r)
| process_blind_do (c : PlatformCall) (k : answer c -> Prog R) :
    reads_process c = false ->
    (forall a, process_blind (k a)) ->
    process_blind (Do c k)
| process_blind_try (body : Prog R) (recover : Exn -> Prog R) :
    process_blind body ->
    (forall e, process_blind (recover e)) ->
    process_blind (Try body recover).

(** Two outcomes of one call agree up to [same]: the same exception, or
    the same answer and worlds that are again [same]. *)
Definition agree {W : Type} (same : W -> W -> Prop) (c : PlatformCall)
    (x y : Exn + (answer c * W)) : Prop :=
  match x, y with
  | inl e1, inl e2 => e1 = e2
  | inr (a1, w1), inr (a2, w2) => a1 = a2 /\ same w1 w2
  | _, _ => False
  end.

(** On worlds that are [same], the platform treats alike every call that
    does not read the process. *)
Definition respects {W : Type} (same : W -> W -> Prop) (h : Handler W)
  : Prop :=
  forall c, reads_process c = false ->
  forall w1 w2, same w1 w2 -> agree same c (h c w1) (h c w2).

(** The calls of a run that returned: all of them, or all but the one
    that threw. *)
Definition returned {W R : Type} (o : Outcome W R) : list PlatformCall :=
  match result o with
  | inl _ => removelast (calls o)
  | inr _ => calls o
  end.

End Platform.

(** ** The module body of [main.jsx] *)

Module Bootstrap.
Import Dom Platform.
Local Open Scope prog_scope.

Definition public_token : string :=
  "public-token-test-ae71e9a8-114f-4d46-a4cf-9ac23b2622da".

Definition mount_point_id : string := "root".

(** Lines 1-6: the import declarations, which the loader evaluates in
    order before the body runs. *)
Definition imports : list PlatformCall :=
  [ Import "react" [Named "StrictMode"];
    Import "react-dom/client" [Named "createRoot"];
    Import "./index.css" [];
    Import "./App.jsx" [Default "App"];
    Import "@stytch/react" [Named "StytchProvider"];
    Import "@stytch/react/ui" [Named "createStytchUIClient"] ].

(** Lines 13-15: [<StytchProvider stytch={stytch}><App /></StytchProvider>]. *)
Definition app_tree (stytch : StytchClient) : ReactElement :=
  Jsx StytchProvider [("stytch", PClient stytch)] [Jsx App [] []].

(** Line 12: [createRoot(document.getElementById('root'))], continued by
    what is done with the root. *)
Definition acquire_root {R : Type} (k : Root -> Prog R) : Prog R :=
  target <- GetElementById mount_point_id ;;
  root <- CreateRoot target ;;
  k root.

Definition main : Prog unit :=
  Import "react" [Named "StrictMode"] ;;
  Import "react-dom/client" [Named "createRoot"] ;;
  Import "./index.css" [] ;;
  Import "./App.jsx" [Default "App"] ;;
  Import "@stytch/react" [Named "StytchProvider"] ;;
  Import "@stytch/react/ui" [Named "createStytchUIClient"] ;;
  stytch <- CreateStytchUIClient public_token None ;;
  acquire_root (fun root =>
    Render root (app_tree stytch) ;;
    Ret tt).

(** Lines 9-16: what runs once the imports are evaluated. *)
Definition module_body : Prog unit :=
  stytch <- CreateStytchUIClient public_token None ;;
  acquire_root (fun root =>
    Render root (app_tree stytch) ;;
    Ret tt).

(** The calls of a run in which nothing throws, given the answers to the
    three calls that return a value. *)
Definition script (stytch : StytchClient) (target : option Path) (root : Root)
  : list PlatformCall :=
  imports ++
  [ CreateStytchUIClient public_token None;
    GetElementById mount_point_id;
    CreateRoot target;
    Render root (app_tree stytch) ].

(** [main] inside a handler that swallows whatever is thrown: not the
    source, but what error handling around it would look like. *)
Definition guarded_main : Prog unit :=
  Try main (fun _ => Ret tt).

(** A bootstrap that takes the token from the environment when it is set
    there: not the source, but what a dependence on the process would look
    like. *)
Definition env_main : Prog unit :=
  configured <- ReadEnv "VITE_STYTCH_PUBLIC_TOKEN" ;;
  stytch <- CreateStytchUIClient
              (match configured with
               | Some token => token
               | None => public_token
               end) None ;;
  acquire_root (fun root =>
    Render root (app_tree stytch) ;;
    Ret tt).

End Bootstrap.

(** ** A reference browser

    The platform as the page sees it: the DOM's [getElementById], React 18's
    [createRoot] (which throws on a target that is not an element) and
    [render] (which replaces whatever the root's container holds), the
    Stytch constructor and the module registry.  What an imported module
    does when it is evaluated lies outside [main.jsx]; the registry records
    only that it was evaluated. *)

Module Browser.
Import Dom Platform.

(** What a program could read of the process it runs in. *)
Record Process := mkProcess {
  argv : list string;
  env : list (string * string);
  files : list (string * string)
}.

Record World := mkWorld {
  document : Document;
  modules : list string;          (* specifiers already evaluated *)
  clients : list StytchClient;    (* SDK clients constructed so far *)
  roots : list Path;              (* containers that host a React root *)
  process : Process
}.

Definition with_document (d : Document) (w : World) : World :=
  mkWorld d (modules w) (clients w) (roots w) (process w).

(** A module is evaluated the first time it is imported. *)
Definition load_module (specifier : string) (w : World) : World :=
  if existsb (String.eqb specifier) (modules w) then w
  else mkWorld (document w) (modules w ++ [specifier]) (clients w) (roots w)
         (process w).

Definition add_client (c : StytchClient) (w : World) : World :=
  mkWorld (document w) (modules w) (clients w ++ [c]) (roots w) (process w).

Definition add_root (p : Path) (w : World) : World :=
  mkWorld (document w) (modules w) (clients w) (roots w ++ [p]) (process w).

Definition not_a_dom_element : Exn :=
  JsError "Error" "createRoot(...): Target container is not a DOM element.".

Definition mount (p : Path) (tree : ReactElement) (d : Document) : Document :=
  replace_children d p [Rendered tree].

(** The value stored under [key], if any. *)
Definition assoc (key : string) (l : list (string * string)) : option string :=
  match find (fun kv => String.eqb (fst kv) key) l with
  | Some kv => Some (snd kv)
  | None => None
  end.

Definition browser : Handler World :=
  fun c =>
    match c as c0 return World -> Exn + (answer c0 * World) with
    | Import specifier _ => fun w => inr (tt, load_module specifier w)
    | CreateStytchUIClient token options => fun w =>
        let c := mkClient token options in inr (c, add_client c w)
    | GetElementById i => fun w => inr (getElementById (document w) i, w)
    | CreateRoot target => fun w =>
        match target with
        | None => inl not_a_dom_element
        | Some p =>
            if is_element (node_at (document w) p)
            then inr (mkRoot p, add_root p w)
            else inl not_a_dom_element
        end
    | Render root tree => fun w =>
        inr (tt, with_document (mount (container root) tree (document w)) w)
    | ReadEnv key => fun w => inr (assoc key (env (process w)), w)
    | ReadArgv => fun w => inr (argv (process w), w)
    | ReadFile path => fun w => inr (assoc path (files (process w)), w)
    end.

(** The world once the six imports of [main.jsx] are evaluated. *)
Definition load_imports (w : World) : World :=
  fold_left (fun acc c =>
               match c with
               | Import specifier _ => load_module specifier acc
               | _ => acc
               end) Bootstrap.imports w.

Definition the_client : StytchClient := mkClient Bootstrap.public_token None.

(** The world a bootstrap leaves behind when [createRoot] throws. *)
Definition client_only (w : World) : World :=
  add_client the_client (load_imports w).

(** The world a successful bootstrap leaves behind when it mounts at [p]. *)
Definition bootstrapped (p : Path) (w : World) : World :=
  with_document (mount p (Bootstrap.app_tree the_client) (document w))
    (add_root p (client_only w)).

(** Two worlds that show the same document, whatever else they hold. *)
Definition same_document (w1 w2 : World) : Prop := document w1 = document w2.

End Browser.

(** ** A page with its libraries

    The reference browser takes the imported modules and the SDK to do
    nothing that shows.  They do: evaluating a module may change the
    document, and the constructor may start requests.  Here what the
    libraries do is left open ([Libraries]), the DOM and React calls are as
    in the reference browser, and [render] schedules the tree, which React
    commits after the call has returned. *)

Module Page.
Import Dom Platform Browser.

(** A network request started by the SDK for a client. *)
Inductive Request := SdkRequest (public_token : string).

Record Page := mkPage {
  dom : Document;
  requests : list Request;                  (* started so far *)
  storage : list (string * string);         (* cookies and local storage *)
  react_roots : list Path;                  (* containers with a root *)
  scheduled : list (Path * ReactElement);   (* renders not yet committed *)
  host : Process
}.

(** The code [main.jsx] imports and does not contain. *)
Record Libraries := mkLibraries {
  evaluate : string -> Page -> Exn + Page;
  construct : string -> option StytchOptions -> Page ->
              Exn + (StytchClient * Page)
}.

Definition with_dom (d : Document) (pg : Page) : Page :=
  mkPage d (requests pg) (storage pg) (react_roots pg) (scheduled pg)
    (host pg).

Definition start_request (r : Request) (pg : Page) : Page :=
  mkPage (dom pg) (requests pg ++ [r]) (storage pg) (react_roots pg)
    (scheduled pg) (host pg).

Definition create_root (p : Path) (pg : Page) : Page :=
  mkPage (dom pg) (requests pg) (storage pg) (react_roots pg ++ [p])
    (scheduled pg) (host pg).

Definition schedule (p : Path) (tree : ReactElement) (pg : Page) : Page :=
  mkPage (dom pg) (requests pg) (storage pg) (react_roots pg)
    (scheduled pg ++ [(p, tree)]) (host pg).

(** React committing one scheduled render. *)
Definition commit (r : Path * ReactElement) (d : Document) : Document :=
  replace_children d (fst r) [Rendered (snd r)].

(** The page once React has committed everything scheduled. *)
Definition settle (pg : Page) : Page :=
  mkPage (fold_left (fun d r => commit r d) (scheduled pg) (dom pg))
    (requests pg) (storage pg) (react_roots pg) [] (host pg).

Definition page_with (L : Libraries) : Handler Page :=
  fun c =>
    match c as c0 return Page -> Exn + (answer c0 * Page) with
    | Import specifier _ => fun pg =>
        match evaluate L specifier pg with
        | inl e => inl e
        | inr pg' => inr (tt, pg')
        end
    | CreateStytchUIClient token options => construct L token options
    | GetElementById i => fun pg => inr (getElementById (dom pg) i, pg)
    | CreateRoot target => fun pg =>
        match target with
        | None => inl not_a_dom_element
        | Some p =>
            if is_element (node_at (dom pg) p)
            then inr (mkRoot p, create_root p pg)
            else inl not_a_dom_element
        end
    | Render root tree => fun pg =>
        inr (tt, schedule (container root) tree pg)
    | ReadEnv key => fun pg => inr (assoc key (env (host pg)), pg)
    | ReadArgv => fun pg => inr (argv (host pg), pg)
    | ReadFile path => fun pg => inr (assoc path (files (host pg)), pg)
    end.

(** [d'] is [d] except, possibly, inside the element at [p]. *)
Definition changed_only_at (p : Path) (d d' : Document) : Prop :=
  forall q, apart p q -> node_at d' q = node_at d q.

(** The reading of C5: from [pg] to [pg'], once settled, the document
    changed at most inside the mount point, and no request was started,
    nothing stored and nothing changed in the process. *)
Definition only_the_render (pg pg' : Page) : Prop :=
  match getElementById (dom pg) Bootstrap.mount_point_id with
  | Some p => changed_only_at p (dom pg) (dom (settle pg'))
  | None => dom (settle pg') = dom pg
  end /\
  requests pg' = requests pg /\
  storage pg' = storage pg /\
  host pg' = host pg.

(** [document.head]: the first [head] child of the first [html] element. *)
Fixpoint index_of_tag (tag : string) (k : nat) (l : list Node) : option nat :=
  match l with
  | [] => None
  | Element t _ _ :: l' =>
      if String.eqb t tag then Some k else index_of_tag tag (S k) l'
  | _ :: l' => index_of_tag tag (S k) l'
  end.

Definition document_head (d : Document) : option Path :=
  match index_of_tag "html" 0 d with
  | None => None
  | Some i =>
      match nth_error d i with
      | Some (Element _ _ kids) =>
          match index_of_tag "head" 0 kids with
          | Some j => Some [i; j]
          | None => None
          end
      | _ => None
      end
  end.

Definition append_child (d : Document) (p : Path) (n : Node) : Document :=
  match node_at d p with
  | Some (Element _ _ kids) => replace_children d p (kids ++ [n])
  | _ => d
  end.

End Page.

(** ** Sample pages *)

Module Samples.
Import Dom Platform Browser Page.

Definition no_process : Process := mkProcess [] [] [].

(** [<html><head/><body><div id="root"></div></body></html>]. *)
Definition index_html : Document :=
  [ Element "html" None
      [ Element "head" None [];
        Element "body" None [ Element "div" (Some "root") [] ] ] ].

(** The same page with the mount point under another id. *)
Definition broken_html : Document :=
  [ Element "html" None
      [ Element "head" None [];
        Element "body" None [ Element "div" (Some "app") [] ] ] ].

Definition fresh_page : World := mkWorld index_html [] [] [] no_process.

Definition broken_page : World := mkWorld broken_html [] [] [] no_process.

(** A page served by a process with flags, variables and files. *)
Definition busy_page : World :=
  mkWorld index_html ["react"] [mkClient "other" None] [[0]]
    (mkProcess ["--token"; "x"] [("STYTCH_PUBLIC_TOKEN", "y")]
       [(".env", "VITE_TOKEN=z")]).

(** A platform whose SDK rejects every token. *)
Definition rejecting_sdk : Handler World :=
  fun c =>
    match c as c0 return World -> Exn + (answer c0 * World) with
    | CreateStytchUIClient _ _ => fun _ => inl (JsError "Error" "invalid token")
    | c0 => browser c0
    end.

(** A platform on which the stylesheet cannot be loaded. *)
Definition missing_stylesheet : Handler World :=
  fun c =>
    match c as c0 return World -> Exn + (answer c0 * World) with
    | Import specifier bindings => fun w =>
        if String.eqb specifier "./index.css"
        then inl (JsError "TypeError" "Failed to fetch module ./index.css")
        else browser (Import specifier bindings) w
    | c0 => browser c0
    end.

(** The libraries as a development build has them: evaluating
    [@stytch/react] brings in a CSS-in-JS runtime that appends
    [<style id="_goober">] to the document's head unless it is there
    already, and the constructor starts a request for the client. *)
Definition goober_style : Node := Element "style" (Some "_goober") [].

Definition inject_goober (pg : Page) : Exn + Page :=
  match getElementById (dom pg) "_goober" with
  | Some _ => inr pg
  | None =>
      match document_head (dom pg) with
      | Some p => inr (with_dom (append_child (dom pg) p goober_style) pg)
      | None =>
          inl (JsError "TypeError"
                 "Cannot read properties of null (reading 'appendChild')")
      end
  end.

Definition bundle : Libraries :=
  mkLibraries
    (fun specifier pg =>
       if String.eqb specifier "@stytch/react" then inject_goober pg
       else inr pg)
    (fun token options pg =>
       inr (mkClient token options, start_request (SdkRequest token) pg)).

Definition plain_page : Page := mkPage index_html [] [] [] [] no_process.


(** The page of [fresh_page] in a process with a token of its own. *)
Definition configured_page : World :=
  mkWorld index_html [] [] []
    (mkProcess [] [("VITE_STYTCH_PUBLIC_TOKEN", "public-token-live")] []).

End Samples.

(** * Facts about the document *)

Module DomFacts.
Import Dom.

(** Induction over a node with the hypothesis available for every child. *)
Lemma Node_forall_ind (P : Node -> Prop) :
  (forall t i kids, Forall P kids -> P (Element t i kids)) ->
  (forall s, P (Text s)) ->
  (forall e, P (Rendered e)) ->
  forall n, P n.
Proof.
  intros HE HT HR.
  fix IH 1.
  intros [t i kids | s | e].
  - apply HE. induction kids as [| c kids IHk]; constructor.
    + apply IH.
    + exact IHk.
  - apply HT.
  - apply HR.
Qed.

Lemma has_id_true (i : string) (nid : option string) :
  has_id i nid = true <-> nid = Some i.
Proof.
  destruct nid as [j |]; simpl.
  - rewrite String.eqb_eq. split; congruence.
  - split; discriminate.
Qed.

Lemma first_child_none {A} (f : A -> option Path) (l : list A) :
  forall k, first_child f k l = None <-> Forall (fun c => f c = None) l.
Proof.
  induction l as [| c l IH]; intros k; simpl.
  - split; [constructor | reflexivity].
  - destruct (f c) as [p |] eqn:Hc.
    + split; [discriminate |].
      intros H. inversion H; subst. congruence.
    + rewrite IH. split.
      * intros H. constructor; assumption.
      * intros H. inversion H; assumption.
Qed.

Lemma first_child_some {A} (f : A -> option Path) (l : list A) :
  forall k p, first_child f k l = Some p ->
  exists j c q, p = (k + j) :: q /\ nth_error l j = Some c /\ f c = Some q.
Proof.
  induction l as [| c l IH]; intros k p; simpl.
  - discriminate.
  - destruct (f c) as [q |] eqn:Hc.
    + intros H. injection H as <-. exists 0, c, q.
      rewrite Nat.add_0_r. auto.
    + intros H. destruct (IH _ _ H) as (j & c' & q & -> & Hn & Hf).
      exists (S j), c', q. rewrite Nat.add_succ_r. auto.
Qed.

Lemma not_in_flat_map {A B} (f : A -> list B) (x : B) (l : list A) :
  ~ In x (flat_map f l) <-> Forall (fun c => ~ In x (f c)) l.
Proof.
  rewrite Forall_forall, in_flat_map. split.
  - intros H c Hc Hx. apply H. exists c. auto.
  - intros H (c & Hc & Hx). exact (H c Hc Hx).
Qed.

Lemma find_in_none (i : string) (n : Node) :
  find_in i n = None <-> ~ In i (ids n).
Proof.
  induction n as [t nid kids IH | s | e] using Node_forall_ind; simpl.
  - destruct (has_id i nid) eqn:Hid.
    + apply has_id_true in Hid. subst nid.
      split; [discriminate |]. intros H. exfalso. apply H. simpl. auto.
    + assert (Hno : ~ In i (match nid with Some j => [j] | None => [] end)).
      { destruct nid as [j |]; simpl; [| tauto].
        intros [-> | []]. simpl in Hid. rewrite String.eqb_refl in Hid.
        discriminate. }
      rewrite first_child_none, in_app_iff, !Forall_forall in *.
      split.
      * intros H [Hi | Hi]; [tauto |].
        apply in_flat_map in Hi. destruct Hi as (c & Hc & Hi).
        apply (IH c Hc) in Hi; auto.
      * intros H c Hc. apply IH; [assumption |].
        intros Hi. apply H. right. apply in_flat_map. exists c. auto.
  - tauto.
  - tauto.
Qed.

(** [getElementById] answers [null] exactly on the documents in which no
    element carries the id. *)
Lemma getElementById_none (d : Document) (i : string) :
  getElementById d i = None <-> ~ In i (document_ids d).
Proof.
  unfold getElementById, document_ids.
  rewrite first_child_none, not_in_flat_map, !Forall_forall.
  split; intros H c Hc; apply find_in_none; auto.
Qed.

Lemma node_at_cons (l : list Node) (k : nat) (q : Path) :
  node_at l (k :: q) =
  match nth_error l k with Some n => descend n q | None => None end.
Proof.
  simpl. destruct (nth_error l k) as [n |]; [| reflexivity].
  destruct q; reflexivity.
Qed.

Lemma find_in_some (i : string) (n : Node) :
  forall q, find_in i n = Some q ->
  exists t kids, descend n q = Some (Element t (Some i) kids).
Proof.
  induction n as [t nid kids IH | s | e] using Node_forall_ind; simpl;
    try discriminate.
  intros q. destruct (has_id i nid) eqn:Hid.
  - apply has_id_true in Hid. subst nid.
    intros H. injection H as <-. simpl. eauto.
  - intros H. apply first_child_some in H.
    destruct H as (j & c & q' & -> & Hn & Hf). simpl in *.
    rewrite Hn.
    rewrite Forall_forall in IH.
    destruct (IH c (nth_error_In _ _ Hn) _ Hf) as (t' & kids' & Hd).
    exists t', kids'. destruct q'; simpl in *; [congruence |].
    destruct c; simpl in *; congruence.
Qed.

(** What [getElementById] returns addresses an element of the document
    that carries the id. *)
Lemma getElementById_some (d : Document) (i : string) (p : Path) :
  getElementById d i = Some p ->
  exists t kids, node_at d p = Some (Element t (Some i) kids).
Proof.
  unfold getElementById. intros H.
  apply first_child_some in H.
  destruct H as (j & c & q & -> & Hn & Hf). simpl Nat.add.
  rewrite node_at_cons, Hn. eapply find_in_some; eauto.
Qed.





End DomFacts.

(** * Facts about programs *)

Module PlatformFacts.
Import Dom Platform.

Section AnyPlatform.
Context {W : Type}.
Variable h : Handler W.

Lemma replay_app (cs cs' : list PlatformCall) :
  forall w w', replay h cs w = inr w' ->
  replay h (cs ++ cs') w = replay h cs' w'.
Proof.
  induction cs as [| c cs IH]; intros w w'; simpl.
  - intros H. injection H as ->. reflexivity.
  - destruct (h c w) as [e | [a w1]]; [discriminate |]. apply IH.
Qed.

(** In a program without handlers an exception ends the run at the call
    that threw it, and a run that returns made every call it lists. *)
Lemma run_catch_free {R : Type} (p : Prog R) :
  catch_free p ->
  forall w,
  match result (run h p w) with
  | inl e =>
      exists pre c,
        calls (run h p w) = pre ++ [c] /\
        replay h pre w = inr (final (run h p w)) /\
        h c (final (run h p w)) = inl e
  | inr _ => replay h (calls (run h p w)) w = inr (final (run h p w))
  end.
Proof.
  induction 1 as [r | c k Hk IH]; intros w.
  - reflexivity.
  - simpl. destruct (h c w) as [e | [a w1]] eqn:Hc; simpl.
    + exists [], c. auto.
    + specialize (IH a w1).
      destruct (result (run h (k a) w1)) as [e | v].
      * destruct IH as (pre & c' & Hcalls & Hre & He).
        exists (c :: pre), c'. rewrite Hcalls. simpl. rewrite Hc. auto.
      * rewrite Hc. exact IH.
Qed.
End AnyPlatform.

Lemma prefix_of_snoc {A} (l m : list A) (x : A) :
  prefix_of l (m ++ [x]) -> l = m ++ [x] \/ prefix_of l m.
Proof.
  intros [rest Hrest].
  induction rest as [| y rest' _] using rev_ind.
  - left. rewrite app_nil_r in Hrest. congruence.
  - right. rewrite app_assoc in Hrest.
    apply app_inj_tail in Hrest. destruct Hrest as [-> _].
    exists rest'. reflexivity.
Qed.

Lemma prefix_of_in {A} (l m : list A) (x : A) :
  prefix_of l m -> In x l -> In x m.
Proof.
  intros [rest ->] Hx. apply in_or_app. auto.
Qed.

Lemma prefix_of_filter {A} (f : A -> bool) (l m : list A) :
  prefix_of l m -> prefix_of (filter f l) (filter f m).
Proof.
  intros [rest ->]. exists (filter f rest). apply filter_app.
Qed.

Lemma prefix_of_singleton {A} (l : list A) (x : A) :
  prefix_of l [x] -> l = [] \/ l = [x].
Proof.
  intros [rest H]. destruct l as [| y l]; [auto |].
  right. simpl in H. injection H as <- H.
  destruct l; [reflexivity | discriminate].
Qed.

End PlatformFacts.

(** * Facts about the bootstrap *)

Module BootstrapFacts.
Import Dom Platform Bootstrap Browser DomFacts PlatformFacts.

Lemma main_catch_free : catch_free main.
Proof.
  unfold main, acquire_root. repeat (constructor; intros).
Qed.

(** One step of a run: case analysis on what the platform does with the
    next call. *)
Tactic Notation "platform_step" constr(h) "as" ident(a) ident(w') ident(E) :=
  match goal with
  | |- context [h ?c ?w] =>
      destruct (h c w) as [? | [a w']] eqn:E; cbn [run calls final result]
  end.

Ltac replay_with_steps :=
  repeat (cbn [replay];
          match goal with
          | E : ?x = _ |- context [?x] => rewrite E
          end).

(** Under every platform the calls of a run are an initial segment of the
    script, all of it when the run returns, and the client that the script
    renders is the one the constructor call answered with. *)
Lemma main_calls {W : Type} (h : Handler W) (w : W) :
  exists stytch target root,
    prefix_of (calls (run h main w)) (script stytch target root) /\
    (forall v, result (run h main w) = inr v ->
               calls (run h main w) = script stytch target root) /\
    (forall wi a wj,
       replay h imports w = inr wi ->
       h (CreateStytchUIClient public_token None) wi = inr (a, wj) ->
       a = stytch).
Proof.
  assert (Hearly : forall cs : list PlatformCall,
             prefix_of cs imports ->
             forall e, replay h imports w = inl e ->
             exists stytch target root,
               prefix_of cs (script stytch target root) /\
               (forall v : unit, @inl Exn unit e = inr v ->
                                 cs = script stytch target root) /\
               (forall wi a wj,
                  replay h imports w = inr wi ->
                  h (CreateStytchUIClient public_token None) wi = inr (a, wj) ->
                  a = stytch)).
  { intros cs [rest Hcs] e He.
    exists (mkClient EmptyString None), None, (mkRoot []).
    split; [| split].
    - unfold script. rewrite Hcs, <- app_assoc. eexists; reflexivity.
    - discriminate.
    - intros wi a wj Hre. congruence. }
  unfold main, acquire_root. cbn [run].
  platform_step h as u1 w1 E1;
    [apply Hearly; [eexists; reflexivity |];
     unfold imports; replay_with_steps; reflexivity |].
  platform_step h as u2 w2 E2;
    [apply Hearly; [eexists; reflexivity |];
     unfold imports; replay_with_steps; reflexivity |].
  platform_step h as u3 w3 E3;
    [apply Hearly; [eexists; reflexivity |];
     unfold imports; replay_with_steps; reflexivity |].
  platform_step h as u4 w4 E4;
    [apply Hearly; [eexists; reflexivity |];
     unfold imports; replay_with_steps; reflexivity |].
  platform_step h as u5 w5 E5;
    [apply Hearly; [eexists; reflexivity |];
     unfold imports; replay_with_steps; reflexivity |].
  platform_step h as u6 w6 E6;
    [apply Hearly; [eexists; reflexivity |];
     unfold imports; replay_with_steps; reflexivity |].
  clear Hearly.
  assert (Himports : replay h imports w = inr w6).
  { unfold imports. replay_with_steps. reflexivity. }
  platform_step h as stytch w7 E7.
  { exists (mkClient EmptyString None), None, (mkRoot []).
    split; [eexists; reflexivity |]. split; [discriminate |].
    intros wi a wj Hre. rewrite Himports in Hre. injection Hre as <-.
    congruence. }
  assert (Hclient : forall wi a wj,
             replay h imports w = inr wi ->
             h (CreateStytchUIClient public_token None) wi = inr (a, wj) ->
             a = stytch).
  { intros wi a wj Hre. rewrite Himports in Hre. injection Hre as <-.
    congruence. }
  platform_step h as target w8 E8.
  { exists stytch, None, (mkRoot []).
    split; [eexists; reflexivity |]. split; [discriminate | exact Hclient]. }
  platform_step h as root w9 E9.
  { exists stytch, target, (mkRoot []).
    split; [eexists; reflexivity |]. split; [discriminate | exact Hclient]. }
  platform_step h as u10 w10 E10.
  { exists stytch, target, root.
    split; [exists []; reflexivity |]. split; [discriminate | exact Hclient]. }
  exists stytch, target, root.
  split; [exists []; reflexivity |]. split; [reflexivity | exact Hclient].
Qed.

(** ** The bootstrap in the reference browser *)

Lemma document_load_module (s : string) (w : World) :
  document (load_module s w) = document w.
Proof.
  unfold load_module. destruct (existsb _ _); reflexivity.
Qed.

Lemma clients_load_module (s : string) (w : World) :
  clients (load_module s w) = clients w.
Proof.
  unfold load_module. destruct (existsb _ _); reflexivity.
Qed.

Lemma roots_load_module (s : string) (w : World) :
  roots (load_module s w) = roots w.
Proof.
  unfold load_module. destruct (existsb _ _); reflexivity.
Qed.

Lemma process_load_module (s : string) (w : World) :
  process (load_module s w) = process w.
Proof.
  unfold load_module. destruct (existsb _ _); reflexivity.
Qed.

Lemma load_imports_frame (w : World) :
  document (load_imports w) = document w /\
  clients (load_imports w) = clients w /\
  roots (load_imports w) = roots w /\
  process (load_imports w) = process w.
Proof.
  unfold load_imports, imports. cbn [fold_left].
  rewrite !document_load_module, !clients_load_module, !roots_load_module,
    !process_load_module. auto.
Qed.

(** The whole run, by cases on what the lookup of the mount point finds. *)
Lemma run_browser_main (w : World) :
  run browser main w =
  match getElementById (document w) mount_point_id with
  | Some p =>
      mkOutcome (script the_client (Some p) (mkRoot p)) (bootstrapped p w)
        (inr tt)
  | None =>
      mkOutcome
        (imports ++
         [ CreateStytchUIClient public_token None;
           GetElementById mount_point_id;
           CreateRoot None ])
        (client_only w) (inl not_a_dom_element)
  end.
Proof.
  destruct (load_imports_frame w) as (Hdoc & _).
  unfold main, acquire_root. cbn [run browser calls final result].
  change (load_module "@stytch/react/ui" _) with (load_imports w).
  change (mkClient public_token None) with the_client.
  change (add_client the_client (load_imports w)) with (client_only w).
  change (document (client_only w)) with (document (load_imports w)).
  rewrite Hdoc.
  destruct (getElementById (document w) mount_point_id) as [p |] eqn:Hget.
  - destruct (getElementById_some _ _ _ Hget) as (t & kids & Hnode).
    rewrite Hnode. cbn [is_element run browser calls final result container].
    change (document (add_root p (client_only w)))
      with (document (load_imports w)).
    rewrite Hdoc. reflexivity.
  - reflexivity.
Qed.

End BootstrapFacts.

(** * The bootstrap on a page *)

Import Dom Platform Bootstrap Browser Samples.
Import DomFacts PlatformFacts BootstrapFacts.

(** C3.  Acquiring the root, [createRoot(document.getElementById('root'))],
    throws exactly on the documents in which no element has id [root]; the
    lookup itself answers [null] there and it is [createRoot] that throws,
    always with the same exception.  On every other document it returns the
    root of an element that carries the id. *)
Theorem mount_point_acquisition (w : World) :
  ((exists e, result (run browser (acquire_root Ret) w) = inl e) <->
   ~ In mount_point_id (document_ids (document w))) /\
  ((exists p tag kids,
      result (run browser (acquire_root Ret) w) = inr (mkRoot p) /\
      node_at (document w) p = Some (Element tag (Some mount_point_id) kids))
   <-> In mount_point_id (document_ids (document w))) /\
  match result (run browser (acquire_root Ret) w) with
  | inl e =>
      e = not_a_dom_element /\
      calls (run browser (acquire_root Ret) w) =
        [GetElementById mount_point_id; CreateRoot None]
  | inr root =>
      calls (run browser (acquire_root Ret) w) =
        [GetElementById mount_point_id; CreateRoot (Some (container root))]
  end.
Proof.
  unfold acquire_root. cbn [run browser calls final result].
  destruct (getElementById (document w) mount_point_id) as [p |] eqn:Hget.
  - destruct (getElementById_some _ _ _ Hget) as (tag & kids & Hnode).
    assert (Hin : In mount_point_id (document_ids (document w))).
    { destruct (in_dec string_dec mount_point_id (document_ids (document w)))
        as [Hin | Hout]; [exact Hin |].
      apply getElementById_none in Hout. congruence. }
    rewrite Hnode. cbn.
    split; [| split].
    + split; [intros [e He]; discriminate | intros Hout; contradiction].
    + split; [auto |]. intros _. exists p, tag, kids. auto.
    + reflexivity.
  - pose proof Hget as Hout. apply getElementById_none in Hout. cbn.
    split; [| split].
    + split; [auto | intros _; eauto].
    + split; [| contradiction]. intros (p & tag & kids & He & _). discriminate.
    + auto.
Qed.

(** * The bootstrap on any platform *)

(** C4.  Whatever the platform does, the bootstrap calls the client
    constructor at most once, and when it does, with the fixed token as its
    only argument: no option bag, nothing read from the world.  A run that
    returns made the call, and in the reference browser every run makes
    it. *)
Theorem client_from_one_token {W : Type} (h : Handler W) (w : W) :
  public_token = "public-token-test-ae71e9a8-114f-4d46-a4cf-9ac23b2622da" /\
  (filter is_client_creation (calls (run h main w)) = [] \/
   filter is_client_creation (calls (run h main w)) =
     [CreateStytchUIClient public_token None]) /\
  (forall v,
     result (run h main w) = inr v ->
     filter is_client_creation (calls (run h main w)) =
       [CreateStytchUIClient public_token None]) /\
  (forall page : World,
     filter is_client_creation (calls (run browser main page)) =
       [CreateStytchUIClient public_token None]).
Proof.
  destruct (main_calls h w) as (stytch & target & root & Hpre & Hok & _).
  split; [reflexivity |]. split; [| split].
  - apply (prefix_of_filter is_client_creation) in Hpre.
    apply prefix_of_singleton in Hpre. exact Hpre.
  - intros v Hv. rewrite (Hok v Hv). reflexivity.
  - intros page. rewrite run_browser_main.
    destruct (getElementById (document page) mount_point_id); reflexivity.
Qed.

Lemma client_from_one_token_witness :
  result (run browser main busy_page) = inr tt /\
  filter is_client_creation (calls (run browser main busy_page)) =
    [CreateStytchUIClient public_token None].
Proof.
  split; [reflexivity |].
  destruct (client_from_one_token browser busy_page) as (_ & _ & Hok & _).
  apply (Hok tt). reflexivity.
Defined.

(** C7.  Whatever the platform does, the bootstrap handles nothing: when a
    call throws, the run ends there with that very exception, in the world
    the calls before it produced, and no call follows; a run that returns
    is one in which no call threw. *)
Theorem failures_propagate {W : Type} (h : Handler W) (w : W) :
  match result (run h main w) with
  | inl e =>
      exists pre c,
        calls (run h main w) = pre ++ [c] /\
        replay h pre w = inr (final (run h main w)) /\
        h c (final (run h main w)) = inl e
  | inr _ => replay h (calls (run h main w)) w = inr (final (run h main w))
  end.
Proof.
  exact (run_catch_free h main main_catch_free w).
Qed.

(** The three failures the specification names, and a guarded bootstrap
    for contrast. *)
Example missing_mount_point_propagates :
  result (run browser main broken_page) = inl not_a_dom_element /\
  last (calls (run browser main broken_page)) (GetElementById EmptyString) =
    CreateRoot None.
Proof. split; reflexivity. Qed.

Example invalid_token_propagates :
  result (run rejecting_sdk main fresh_page) =
    inl (JsError "Error" "invalid token") /\
  last (calls (run rejecting_sdk main fresh_page)) (GetElementById EmptyString) =
    CreateStytchUIClient public_token None /\
  filter is_render (calls (run rejecting_sdk main fresh_page)) = [].
Proof. repeat split; reflexivity. Qed.

Example guarded_main_recovers :
  result (run browser guarded_main broken_page) = inr tt /\
  ~ catch_free guarded_main.
Proof.
  split; [reflexivity |]. intros H. inversion H.
Qed.

(** C9.  [StrictMode] is the first thing [main.jsx] imports, and no run,
    on any platform, renders under it: every tree handed to [render] has
    [StytchProvider] outermost, holding the client, with [<App />] as its
    only child, and no component of the tree is or lies below
    [StrictMode]. *)
Theorem rendered_tree_not_in_strict_mode {W : Type} (h : Handler W) (w : W) :
  (exists k, main = Do (Import "react" [Named "StrictMode"]) k) /\
  Forall
    (fun c =>
       match c with
       | Render _ t =>
           element_type t = StytchProvider /\
           (exists stytch, element_props t = [("stytch", PClient stytch)]) /\
           element_children t = [Jsx App [] []] /\
           ~ In StrictMode (components t) /\
           strict_components t = []
       | _ => True
       end)
    (calls (run h main w)) /\
  (forall v,
     result (run h main w) = inr v ->
     exists r t, In (Render r t) (calls (run h main w))).
Proof.
  split; [eexists; reflexivity |].
  destruct (main_calls h w) as (stytch & target & root & Hpre & Hok & _).
  split.
  - destruct Hpre as [rest Hrest].
    assert (Hall : Forall
              (fun c =>
                 match c with
                 | Render _ t =>
                     element_type t = StytchProvider /\
                     (exists s, element_props t = [("stytch", PClient s)]) /\
                     element_children t = [Jsx App [] []] /\
                     ~ In StrictMode (components t) /\
                     strict_components t = []
                 | _ => True
                 end)
              (script stytch target root)).
    { unfold script, imports. simpl app.
      repeat (constructor; [exact I |]).
      constructor; [| constructor].
      simpl. repeat split; eauto. intuition discriminate. }
    rewrite Hrest in Hall. apply Forall_app in Hall. tauto.
  - intros v Hv. exists root, (app_tree stytch).
    rewrite (Hok v Hv). unfold script. apply in_or_app. right.
    simpl. auto.
Qed.

Lemma rendered_tree_not_in_strict_mode_witness :
  result (run browser main fresh_page) = inr tt /\
  exists r t, In (Render r t) (calls (run browser main fresh_page)).
Proof.
  split; [reflexivity |].
  destruct (rendered_tree_not_in_strict_mode browser fresh_page)
    as (_ & _ & Hok).
  apply (Hok tt). reflexivity.
Defined.

(** Nothing is retried: whatever the platform does, no call occurs twice
    in a run. *)
Remark no_call_is_repeated {W : Type} (h : Handler W) (w : W) :
  NoDup (calls (run h main w)).
Proof.
  destruct (main_calls h w) as (stytch & target & root & [rest Hrest] & _).
  assert (Hscript : NoDup (script stytch target root)).
  { unfold script, imports. simpl app.
    repeat (constructor; [simpl; intuition discriminate |]).
    constructor. }
  rewrite Hrest in Hscript. exact (NoDup_app_remove_r _ _ Hscript).
Qed.

(** * More on the bootstrap on any platform *)

Module BodyFacts.
Import Dom Platform Bootstrap PlatformFacts.

Ltac run_with_steps :=
  repeat match goal with
         | E : ?x = _ |- context [match ?x with _ => _ end] =>
             rewrite E; cbn [run calls final result]
         end.

(** When the six imports return, the run is the imports followed by the
    run of the module body in the world they leave. *)
Lemma run_imports_return {W : Type} (h : Handler W) (w wi : W) :
  replay h imports w = inr wi ->
  run h main w =
  mkOutcome (imports ++ calls (run h module_body wi))
    (final (run h module_body wi)) (result (run h module_body wi)).
Proof.
  unfold imports. cbn [replay]. intros Hre.
  destruct (h (Import "react" [Named "StrictMode"]) w)
    as [? | [u1 w1]] eqn:E1; [discriminate |].
  destruct (h (Import "react-dom/client" [Named "createRoot"]) w1)
    as [? | [u2 w2]] eqn:E2; [discriminate |].
  destruct (h (Import "./index.css" []) w2)
    as [? | [u3 w3]] eqn:E3; [discriminate |].
  destruct (h (Import "./App.jsx" [Default "App"]) w3)
    as [? | [u4 w4]] eqn:E4; [discriminate |].
  destruct (h (Import "@stytch/react" [Named "StytchProvider"]) w4)
    as [? | [u5 w5]] eqn:E5; [discriminate |].
  destruct (h (Import "@stytch/react/ui" [Named "createStytchUIClient"]) w5)
    as [? | [u6 w6]] eqn:E6; [discriminate |].
  injection Hre as <-.
  unfold main. cbn [run]. run_with_steps. reflexivity.
Qed.

(** When an import throws, the run ends there, among the imports. *)
Lemma run_imports_throw {W : Type} (h : Handler W) (w : W) (e : Exn) :
  replay h imports w = inl e ->
  result (run h main w) = inl e /\
  prefix_of (calls (run h main w)) imports.
Proof.
  unfold imports, main. cbn [replay run]. intros Hre.
  destruct (h (Import "react" [Named "StrictMode"]) w)
    as [? | [u1 w1]] eqn:E1; cbn [run calls final result];
    [split; [congruence | eexists; reflexivity] |].
  destruct (h (Import "react-dom/client" [Named "createRoot"]) w1)
    as [? | [u2 w2]] eqn:E2; cbn [run calls final result];
    [split; [congruence | eexists; reflexivity] |].
  destruct (h (Import "./index.css" []) w2)
    as [? | [u3 w3]] eqn:E3; cbn [run calls final result];
    [split; [congruence | eexists; reflexivity] |].
  destruct (h (Import "./App.jsx" [Default "App"]) w3)
    as [? | [u4 w4]] eqn:E4; cbn [run calls final result];
    [split; [congruence | eexists; reflexivity] |].
  destruct (h (Import "@stytch/react" [Named "StytchProvider"]) w4)
    as [? | [u5 w5]] eqn:E5; cbn [run calls final result];
    [split; [congruence | eexists; reflexivity] |].
  destruct (h (Import "@stytch/react/ui" [Named "createStytchUIClient"]) w5)
    as [? | [u6 w6]] eqn:E6; cbn [run calls final result];
    [split; [congruence | exists []; reflexivity] |].
  discriminate.
Qed.

(** The module body always starts by calling the constructor. *)
Lemma module_body_starts_with_client {W : Type} (h : Handler W) (w : W) :
  exists rest,
    calls (run h module_body w) =
    CreateStytchUIClient public_token None :: rest.
Proof.
  unfold module_body. cbn [run].
  destruct (h (CreateStytchUIClient public_token None) w) as [e | [a w1]];
    cbn [calls]; eexists; reflexivity.
Qed.

Lemma prefix_of_nil {A} (l : list A) : prefix_of l [] -> l = [].
Proof.
  intros [rest H]. symmetry in H. apply app_eq_nil in H. tauto.
Qed.

Lemma prefix_of_before_last {A} (pre m : list A) (c x : A) :
  prefix_of (pre ++ [c]) (m ++ [x]) -> prefix_of pre m.
Proof.
  intros H. apply prefix_of_snoc in H. destruct H as [Hall | [rest ->]].
  - apply app_inj_tail in Hall. destruct Hall as [-> _].
    exists []. symmetry. apply app_nil_r.
  - exists (c :: rest). rewrite <- app_assoc. reflexivity.
Qed.

End BodyFacts.

Import BodyFacts.

(** X1.  On every platform on which the imports, the constructor and the
    lookup return, whatever the lookup answered, an element or [null], is
    what [createRoot] is called with: nothing checks it in between.  If
    [createRoot] throws, the run ends there with that exception and nothing
    is rendered; if it returns a root, [render] is called on that root with
    the provider around the constructed client, and the run ends as that
    call does. *)
Theorem lookup_answer_goes_to_createRoot {W : Type} (h : Handler W)
    (w wi wj wk : W) (stytch : StytchClient) (target : option Path) :
  replay h imports w = inr wi ->
  h (CreateStytchUIClient public_token None) wi = inr (stytch, wj) ->
  h (GetElementById mount_point_id) wj = inr (target, wk) ->
  match h (CreateRoot target) wk with
  | inl e =>
      run h main w =
      mkOutcome
        (imports ++
         [ CreateStytchUIClient public_token None;
           GetElementById mount_point_id;
           CreateRoot target ])
        wk (inl e)
  | inr (root, wl) =>
      calls (run h main w) =
        imports ++
        [ CreateStytchUIClient public_token None;
          GetElementById mount_point_id;
          CreateRoot target;
          Render root (app_tree stytch) ] /\
      match h (Render root (app_tree stytch)) wl with
      | inl e =>
          result (run h main w) = inl e /\ final (run h main w) = wl
      | inr (_, wm) =>
          result (run h main w) = inr tt /\ final (run h main w) = wm
      end
  end.
Proof.
  intros Himports Hclient Hlookup.
  rewrite (run_imports_return h w wi Himports).
  unfold module_body, acquire_root. cbn [run].
  rewrite Hclient. cbn [run calls final result]. rewrite Hlookup.
  destruct (h (CreateRoot target) wk) as [e | [root wl]];
    cbn [run calls final result]; [reflexivity |].
  destruct (h (Render root (app_tree stytch)) wl) as [e | [u wm]];
    cbn [run calls final result]; auto.
Qed.

Lemma lookup_answer_goes_to_createRoot_witness :
  replay browser imports broken_page = inr (load_imports broken_page) /\
  browser (GetElementById mount_point_id) (client_only broken_page) =
    inr (None, client_only broken_page) /\
  run browser main broken_page =
    mkOutcome
      (imports ++
       [ CreateStytchUIClient public_token None;
         GetElementById mount_point_id;
         CreateRoot None ])
      (client_only broken_page) (inl not_a_dom_element).
Proof.
  split; [reflexivity |]. split; [reflexivity |].
  exact (lookup_answer_goes_to_createRoot browser broken_page
           (load_imports broken_page) (client_only broken_page)
           (client_only broken_page) the_client None
           eq_refl eq_refl eq_refl).
Defined.

(** X2.  On every platform, a bootstrap that ends with an exception has
    rendered nothing: every call that returned before the one that threw
    is an import, the constructor, the lookup or [createRoot], never a
    [render]. *)
Theorem failed_run_rendered_nothing {W : Type} (h : Handler W) (w : W)
    (e : Exn) :
  result (run h main w) = inl e ->
  exists pre c,
    calls (run h main w) = pre ++ [c] /\
    filter is_render pre = [] /\
    replay h pre w = inr (final (run h main w)) /\
    h c (final (run h main w)) = inl e.
Proof.
  intros Hfail.
  pose proof (run_catch_free h main main_catch_free w) as Hrun.
  rewrite Hfail in Hrun. destruct Hrun as (pre & c & Hcalls & Hre & Hc).
  exists pre, c. repeat split; try assumption.
  destruct (main_calls h w) as (stytch & target & root & Hpre & _).
  rewrite Hcalls in Hpre.
  change (prefix_of (pre ++ [c])
            ((imports ++
              [ CreateStytchUIClient public_token None;
                GetElementById mount_point_id;
                CreateRoot target ]) ++
             [Render root (app_tree stytch)])) in Hpre.
  apply prefix_of_before_last in Hpre.
  apply (prefix_of_filter is_render) in Hpre.
  apply prefix_of_nil in Hpre. exact Hpre.
Qed.

Lemma failed_run_rendered_nothing_witness :
  result (run rejecting_sdk main fresh_page) =
    inl (JsError "Error" "invalid token") /\
  exists pre c,
    calls (run rejecting_sdk main fresh_page) = pre ++ [c] /\
    filter is_render pre = [] /\
    replay rejecting_sdk pre fresh_page =
      inr (final (run rejecting_sdk main fresh_page)) /\
    rejecting_sdk c (final (run rejecting_sdk main fresh_page)) =
      inl (JsError "Error" "invalid token").
Proof.
  split; [reflexivity |].
  apply (failed_run_rendered_nothing rejecting_sdk fresh_page). reflexivity.
Defined.

(** X3.  On every platform the client constructor is called exactly when
    all six imports have returned.  When an import throws, the bootstrap
    ends with that exception having made import calls only: no client is
    constructed, nothing is looked up and nothing is rendered. *)
Theorem client_constructed_iff_imports_return {W : Type} (h : Handler W)
    (w : W) :
  (In (CreateStytchUIClient public_token None) (calls (run h main w)) <->
   exists wi, replay h imports w = inr wi) /\
  (forall e,
     replay h imports w = inl e ->
     result (run h main w) = inl e /\
     prefix_of (calls (run h main w)) imports /\
     filter is_client_creation (calls (run h main w)) = [] /\
     filter is_render (calls (run h main w)) = []).
Proof.
  destruct (replay h imports w) as [e | wi] eqn:Hre.
  - destruct (run_imports_throw h w e Hre) as (Hres & Hpre).
    split.
    + split.
      * intros Hin. apply (prefix_of_in _ _ _ Hpre) in Hin.
        simpl in Hin. intuition discriminate.
      * intros [wi Hwi]. discriminate.
    + intros e' He'. injection He' as <-.
      repeat split; try assumption.
      * apply (prefix_of_filter is_client_creation) in Hpre.
        apply prefix_of_nil in Hpre. exact Hpre.
      * apply (prefix_of_filter is_render) in Hpre.
        apply prefix_of_nil in Hpre. exact Hpre.
  - split; [| discriminate].
    split; [eauto |]. intros _.
    rewrite (run_imports_return h w wi Hre). cbn [calls].
    destruct (module_body_starts_with_client h wi) as [rest ->].
    apply in_or_app. right. left. reflexivity.
Qed.

Lemma client_constructed_iff_imports_return_witness :
  replay missing_stylesheet imports fresh_page =
    inl (JsError "TypeError" "Failed to fetch module ./index.css") /\
  result (run missing_stylesheet main fresh_page) =
    inl (JsError "TypeError" "Failed to fetch module ./index.css") /\
  filter is_client_creation (calls (run missing_stylesheet main fresh_page))
    = [].
Proof.
  split; [reflexivity |].
  destruct (client_constructed_iff_imports_return missing_stylesheet fresh_page)
    as (_ & Hthrow).
  destruct (Hthrow _ eq_refl) as (Hres & _ & Hnone & _).
  split; [exact Hres | exact Hnone].
Defined.

(** * The bootstrap on a page with its libraries *)

Module PageFacts.
Import Dom Platform Bootstrap Browser Page.
Import DomFacts PlatformFacts BootstrapFacts BodyFacts.

(** The whole run once the imports and the constructor have returned, by
    cases on what the lookup of the mount point finds. *)
Lemma run_page_main (L : Libraries) (pg wi wj : Page) (stytch : StytchClient) :
  replay (page_with L) imports pg = inr wi ->
  construct L public_token None wi = inr (stytch, wj) ->
  run (page_with L) main pg =
  match getElementById (dom wj) mount_point_id with
  | Some p =>
      mkOutcome (script stytch (Some p) (mkRoot p))
        (schedule p (app_tree stytch) (create_root p wj)) (inr tt)
  | None =>
      mkOutcome
        (imports ++
         [ CreateStytchUIClient public_token None;
           GetElementById mount_point_id;
           CreateRoot None ])
        wj (inl not_a_dom_element)
  end.
Proof.
  intros Himports Hclient.
  rewrite (run_imports_return _ _ _ Himports).
  unfold module_body, acquire_root. cbn [run page_with].
  rewrite Hclient. cbn [run page_with calls final result].
  destruct (getElementById (dom wj) mount_point_id) as [p |] eqn:Hget.
  - destruct (getElementById_some _ _ _ Hget) as (tag & kids & Hnode).
    rewrite Hnode. cbn [is_element run page_with calls final result container].
    reflexivity.
  - reflexivity.
Qed.

(** The run when the constructor throws. *)
Lemma run_page_main_no_client (L : Libraries) (pg wi : Page) (e : Exn) :
  replay (page_with L) imports pg = inr wi ->
  construct L public_token None wi = inl e ->
  run (page_with L) main pg =
  mkOutcome (imports ++ [CreateStytchUIClient public_token None]) wi (inl e).
Proof.
  intros Himports Hclient.
  rewrite (run_imports_return _ _ _ Himports).
  unfold module_body. cbn [run page_with]. rewrite Hclient. reflexivity.
Qed.



Lemma filter_all {A} (f : A -> bool) (l : list A) :
  Forall (fun x => f x = true) l -> filter f l = l.
Proof.
  induction 1 as [| x l Hx _ IH]; simpl; [reflexivity |].
  rewrite Hx, IH. reflexivity.
Qed.

Lemma prefix_of_forall {A} (P : A -> Prop) (l m : list A) :
  prefix_of l m -> Forall P m -> Forall P l.
Proof.
  intros [rest ->] H. apply Forall_app in H. tauto.
Qed.

Lemma prefix_of_app_r {A} (l m tail : list A) :
  prefix_of l m -> prefix_of l (m ++ tail).
Proof.
  intros [rest ->]. exists (rest ++ tail). symmetry. apply app_assoc.
Qed.

Lemma main_process_blind : process_blind main.
Proof.
  unfold main, acquire_root.
  repeat (constructor; [reflexivity |]; intros).
  constructor.
Qed.

(** A program that never reads the process behaves alike on worlds the
    platform treats alike. *)
Lemma blind_runs_agree {W R : Type} (same : W -> W -> Prop) (h : Handler W)
    (p : Prog R) :
  respects same h ->
  process_blind p ->
  forall w1 w2, same w1 w2 ->
  calls (run h p w1) = calls (run h p w2) /\
  result (run h p w1) = result (run h p w2) /\
  same (final (run h p w1)) (final (run h p w2)).
Proof.
  intros Hh Hblind.
  induction Hblind as [r | c k Hc Hk IH | body recover Hbody IHbody Hrec IHrec];
    intros w1 w2 Hsame.
  - simpl. auto.
  - pose proof (Hh c Hc w1 w2 Hsame) as Hagree. unfold agree in Hagree.
    simpl.
    destruct (h c w1) as [e1 | [a1 w1']], (h c w2) as [e2 | [a2 w2']];
      try contradiction.
    + subst e2. simpl. auto.
    + destruct Hagree as [<- Hsame']. simpl.
      destruct (IH a1 w1' w2' Hsame') as (Hcalls & Hres & Hfin).
      rewrite Hcalls. auto.
  - simpl. destruct (IHbody w1 w2 Hsame) as (Hcalls & Hres & Hfin).
    rewrite <- Hres.
    destruct (result (run h body w1)) as [e | v]; [| auto].
    destruct (IHrec e _ _ Hfin) as (Hcalls' & Hres' & Hfin').
    simpl. rewrite Hcalls, Hcalls'. auto.
Qed.

Lemma blind_never_reads {W R : Type} (h : Handler W) (p : Prog R) :
  process_blind p ->
  forall w, filter reads_process (calls (run h p w)) = [].
Proof.
  induction 1 as [r | c k Hc Hk IH | body recover Hbody IHbody Hrec IHrec];
    intros w.
  - reflexivity.
  - simpl. destruct (h c w) as [e | [a w']]; simpl; rewrite Hc; auto.
  - simpl. destruct (result (run h body w)) as [e | v]; [| apply IHbody].
    simpl. rewrite filter_app, IHbody, IHrec. reflexivity.
Qed.

(** The reference browser answers every call that does not read the
    process from the document alone. *)
Lemma browser_respects_document : respects same_document browser.
Proof.
  intros c Hc w1 w2 Hsame. unfold same_document in *.
  destruct c as [s bs | t o | i | target | r tree | key | | path];
    try discriminate Hc; unfold agree; cbn [browser].
  - split; [reflexivity |]. rewrite !document_load_module. exact Hsame.
  - split; [reflexivity | exact Hsame].
  - split; [rewrite Hsame; reflexivity | exact Hsame].
  - destruct target as [p |]; [| reflexivity].
    rewrite <- Hsame. destruct (is_element (node_at (document w1) p));
      [split; [reflexivity | exact Hsame] | reflexivity].
  - split; [reflexivity |]. cbn. rewrite Hsame. reflexivity.
Qed.

End PageFacts.

Import Page PageFacts.






(** C5, as stated, fails: on the plain page, with the libraries of a
    development build, the bootstrap returns having started a network
    request and having changed the document's head, neither of which is
    the render into the mount point. *)
Lemma bootstrap_has_other_effects :
  result (run (page_with bundle) main plain_page) = inr tt /\
  requests plain_page = [] /\
  requests (final (run (page_with bundle) main plain_page)) =
    [SdkRequest public_token] /\
  getElementById (dom plain_page) mount_point_id = Some [0; 1; 0] /\
  node_at (dom plain_page) [0; 0] <>
  node_at (dom (settle (final (run (page_with bundle) main plain_page))))
    [0; 0] /\
  ~ only_the_render plain_page
      (final (run (page_with bundle) main plain_page)).
Proof.
  split; [reflexivity |]. split; [reflexivity |]. split; [reflexivity |].
  split; [reflexivity |]. split; [vm_compute; discriminate |].
  intros (_ & Hrequests & _). vm_compute in Hrequests. discriminate.
Qed.

(** C5, amended.  Whatever the libraries do, the page the bootstrap leaves
    is the page left by the library calls that returned, the evaluation of
    the imported modules and the construction of the client, with this
    difference only: a run that returns has added a React root on the
    element the lookup found in that page and has scheduled one render of
    the provider around the constructed client into it.  A run that throws
    has added nothing of its own.  In both cases the document, the
    requests started, the storage and the process are those of the page
    the library calls left. *)
Theorem bootstrap_effects (L : Libraries) (pg : Page) :
  exists wl,
    replay (page_with L)
      (filter is_library_call (returned (run (page_with L) main pg))) pg =
      inr wl /\
    match result (run (page_with L) main pg) with
    | inl _ => final (run (page_with L) main pg) = wl
    | inr _ =>
        exists p stytch wi,
          replay (page_with L) imports pg = inr wi /\
          construct L public_token None wi = inr (stytch, wl) /\
          getElementById (dom wl) mount_point_id = Some p /\
          final (run (page_with L) main pg) =
            schedule p (app_tree stytch) (create_root p wl)
    end /\
    dom (final (run (page_with L) main pg)) = dom wl /\
    requests (final (run (page_with L) main pg)) = requests wl /\
    storage (final (run (page_with L) main pg)) = storage wl /\
    host (final (run (page_with L) main pg)) = host wl.
Proof.
  destruct (replay (page_with L) imports pg) as [e | wi] eqn:Himports.
  - destruct (run_imports_throw _ _ _ Himports) as (Hres & Hpre).
    pose proof (run_catch_free (page_with L) main main_catch_free pg) as Hrun.
    unfold returned. rewrite Hres in *.
    destruct Hrun as (pre & c & Hcalls & Hre & _).
    rewrite Hcalls in *. rewrite removelast_last.
    exists (final (run (page_with L) main pg)).
    assert (Hlib : Forall (fun x => is_library_call x = true) pre).
    { apply (prefix_of_forall _ pre imports).
      - destruct Hpre as [rest Hrest]. exists ([c] ++ rest).
        rewrite Hrest, <- app_assoc. reflexivity.
      - unfold imports. repeat constructor. }
    rewrite (filter_all _ _ Hlib). repeat split; auto.
  - destruct (construct L public_token None wi) as [e | [stytch wj]] eqn:Hclient.
    + unfold returned.
      rewrite (run_page_main_no_client L pg wi e Himports Hclient).
      cbn [calls final result]. exists wi.
      split; [exact Himports | repeat split; auto].
    + assert (Hlibs : replay (page_with L)
                        (imports ++ [CreateStytchUIClient public_token None])
                        pg = inr wj).
      { rewrite (replay_app _ _ _ _ _ Himports). cbn [replay page_with].
        rewrite Hclient. reflexivity. }
      unfold returned.
      rewrite (run_page_main L pg wi wj stytch Himports Hclient).
      destruct (getElementById (dom wj) mount_point_id) as [p |] eqn:Hget;
        cbn [calls final result]; exists wj.
      * split; [exact Hlibs |]. split; [| repeat split; auto].
        exists p, stytch, wi. repeat split; auto.
      * split; [exact Hlibs | repeat split; auto].
Qed.

Lemma bootstrap_effects_witness :
  exists wl,
    replay (page_with bundle)
      (imports ++ [CreateStytchUIClient public_token None]) plain_page =
      inr wl /\
    requests (final (run (page_with bundle) main plain_page)) = requests wl /\
    dom (final (run (page_with bundle) main plain_page)) = dom wl.
Proof.
  destruct (bootstrap_effects bundle plain_page)
    as (wl & Hlibs & _ & Hdom & Hrequests & _).
  exists wl. split; [exact Hlibs |]. split; [exact Hrequests | exact Hdom].
Defined.

(** C8.  Whatever the platform, and whatever it is for two worlds to be
    the same to it: if the platform treats alike, on worlds that are the
    same, every call that does not read the environment, the command line
    or a file, then so does the bootstrap.  It makes no such call, and on
    two worlds that are the same it makes the same calls in the same
    order, so it constructs the same client and renders the same tree on
    the same root, ends in the same way and leaves worlds that are again
    the same. *)
Theorem bootstrap_ignores_process {W : Type} (same : W -> W -> Prop)
    (h : Handler W) (w1 w2 : W) :
  respects same h ->
  same w1 w2 ->
  filter reads_process (calls (run h main w1)) = [] /\
  calls (run h main w1) = calls (run h main w2) /\
  filter is_client_creation (calls (run h main w1)) =
    filter is_client_creation (calls (run h main w2)) /\
  filter is_render (calls (run h main w1)) =
    filter is_render (calls (run h main w2)) /\
  result (run h main w1) = result (run h main w2) /\
  same (final (run h main w1)) (final (run h main w2)).
Proof.
  intros Hh Hsame.
  destruct (blind_runs_agree same h main Hh main_process_blind w1 w2 Hsame)
    as (Hcalls & Hres & Hfin).
  split; [apply blind_never_reads; exact main_process_blind |].
  rewrite Hcalls. auto.
Qed.

(** Two pages with the same document and different processes, registries
    and clients. *)
Lemma bootstrap_ignores_process_witness :
  same_document fresh_page busy_page /\
  process fresh_page <> process busy_page /\
  calls (run browser main fresh_page) = calls (run browser main busy_page) /\
  result (run browser main fresh_page) = result (run browser main busy_page) /\
  same_document (final (run browser main fresh_page))
    (final (run browser main busy_page)).
Proof.
  assert (Hsame : same_document fresh_page busy_page) by reflexivity.
  split; [exact Hsame |]. split; [discriminate |].
  destruct (bootstrap_ignores_process same_document browser fresh_page
              busy_page browser_respects_document Hsame)
    as (_ & Hcalls & _ & _ & Hres & Hfin).
  auto.
Defined.

(** For contrast, a bootstrap that reads its token from the environment
    does depend on the process: same document, different client. *)
Example env_main_depends_on_process :
  same_document fresh_page configured_page /\
  ~ process_blind env_main /\
  filter is_client_creation (calls (run browser env_main fresh_page)) =
    [CreateStytchUIClient public_token None] /\
  filter is_client_creation (calls (run browser env_main configured_page)) =
    [CreateStytchUIClient "public-token-live" None].
Proof.
  split; [reflexivity |]. split; [| split; reflexivity].
  intros H. inversion H. discriminate.
Qed.

(** The calls of a run follow the script in which the client, the target
    and the root are what the platform answered. *)
Lemma main_calls_tied {W : Type} (h : Handler W) (w : W) :
  exists stytch target root,
    (forall wi a wj,
       replay h imports w = inr wi ->
       h (CreateStytchUIClient public_token None) wi = inr (a, wj) ->
       a = stytch /\
       forall t wk,
         h (GetElementById mount_point_id) wj = inr (t, wk) ->
         t = target /\
         forall r wl,
           h (CreateRoot target) wk = inr (r, wl) -> r = root) /\
    prefix_of (calls (run h main w)) (script stytch target root) /\
    (forall v, result (run h main w) = inr v ->
               calls (run h main w) = script stytch target root).
Proof.
  destruct (replay h imports w) as [e | wi] eqn:Himports.
  - destruct (run_imports_throw h w e Himports) as (Hres & Hpre).
    exists (mkClient EmptyString None), None, (mkRoot []).
    split; [intros; discriminate |].
    split; [apply prefix_of_app_r; exact Hpre |].
    intros v Hv. congruence.
  - rewrite (run_imports_return h w wi Himports).
    unfold module_body, acquire_root. cbn [run calls result].
    destruct (h (CreateStytchUIClient public_token None) wi)
      as [e | [stytch wj]] eqn:Hclient; cbn [run calls result].
    { exists (mkClient EmptyString None), None, (mkRoot []).
      split; [| split; [eexists; reflexivity | discriminate]].
      intros wi' a wj' Hwi Ha. injection Hwi as <-.
      rewrite Hclient in Ha. discriminate. }
    destruct (h (GetElementById mount_point_id) wj)
      as [e | [target wk]] eqn:Hlookup; cbn [run calls result].
    { exists stytch, None, (mkRoot []).
      split; [| split; [eexists; reflexivity | discriminate]].
      intros wi' a wj' Hwi Ha. injection Hwi as <-.
      rewrite Hclient in Ha. injection Ha as <- <-. split; [reflexivity |].
      intros t wk Ht. rewrite Hlookup in Ht. discriminate. }
    destruct (h (CreateRoot target) wk)
      as [e | [root wl]] eqn:Hroot; cbn [run calls result].
    { exists stytch, target, (mkRoot []).
      split; [| split; [eexists; reflexivity | discriminate]].
      intros wi' a wj' Hwi Ha. injection Hwi as <-.
      rewrite Hclient in Ha. injection Ha as <- <-. split; [reflexivity |].
      intros t wk' Ht. rewrite Hlookup in Ht. injection Ht as <- <-.
      split; [reflexivity |].
      intros r wl Hr. rewrite Hroot in Hr. discriminate. }
    exists stytch, target, root.
    split.
    { intros wi' a wj' Hwi Ha. injection Hwi as <-.
      rewrite Hclient in Ha. injection Ha as <- <-. split; [reflexivity |].
      intros t wk' Ht. rewrite Hlookup in Ht. injection Ht as <- <-.
      split; [reflexivity |].
      intros r wl' Hr. rewrite Hroot in Hr. injection Hr as <- _.
      reflexivity. }
    destruct (h (Render root (app_tree stytch)) wl) as [e | [u wm]];
      cbn [run calls result].
    + split; [exists []; reflexivity | discriminate].
    + split; [exists []; reflexivity | reflexivity].
Qed.

(** C2.  Whatever the platform does, the calls of the bootstrap are an
    initial segment of: the imports, the construction of the client from
    the fixed token, the lookup of [root], [createRoot] on what the lookup
    answered, [render] on the root [createRoot] returned, of the provider
    around the client the constructor returned.  A run that reaches
    [render], and so every run that returns, made all of them in this
    order.  On a page, whatever its libraries do, a [render] call is on
    the element with id [root] of the document as it is when looked up,
    after the client is constructed. *)
Theorem client_constructed_then_rendered {W : Type} (h : Handler W) (w : W) :
  (exists stytch target root,
     (forall wi a wj,
        replay h imports w = inr wi ->
        h (CreateStytchUIClient public_token None) wi = inr (a, wj) ->
        a = stytch /\
        forall t wk,
          h (GetElementById mount_point_id) wj = inr (t, wk) ->
          t = target /\
          forall r wl,
            h (CreateRoot target) wk = inr (r, wl) -> r = root) /\
     prefix_of (calls (run h main w))
       (imports ++
        [ CreateStytchUIClient public_token None;
          GetElementById mount_point_id;
          CreateRoot target;
          Render root
            (Jsx StytchProvider [("stytch", PClient stytch)]
               [Jsx App [] []]) ]) /\
     (forall r t,
        In (Render r t) (calls (run h main w)) ->
        calls (run h main w) =
          imports ++
          [ CreateStytchUIClient public_token None;
            GetElementById mount_point_id;
            CreateRoot target;
            Render root
              (Jsx StytchProvider [("stytch", PClient stytch)]
                 [Jsx App [] []]) ]) /\
     (forall v,
        result (run h main w) = inr v ->
        calls (run h main w) =
          imports ++
          [ CreateStytchUIClient public_token None;
            GetElementById mount_point_id;
            CreateRoot target;
            Render root
              (Jsx StytchProvider [("stytch", PClient stytch)]
                 [Jsx App [] []]) ])) /\
  (forall (L : Libraries) (pg : Page) r t,
     In (Render r t) (calls (run (page_with L) main pg)) ->
     exists wi stytch wj tag kids,
       replay (page_with L) imports pg = inr wi /\
       construct L public_token None wi = inr (stytch, wj) /\
       t = Jsx StytchProvider [("stytch", PClient stytch)] [Jsx App [] []] /\
       getElementById (dom wj) mount_point_id = Some (container r) /\
       node_at (dom wj) (container r) =
         Some (Element tag (Some mount_point_id) kids)).
Proof.
  split.
  - destruct (main_calls_tied h w)
      as (stytch & target & root & Htied & Hpre & Hok).
    exists stytch, target, root.
    split; [exact Htied |]. split; [exact Hpre |]. split; [| exact Hok].
    intros r t Hin.
    change (prefix_of (calls (run h main w))
              ((imports ++
                [ CreateStytchUIClient public_token None;
                  GetElementById mount_point_id;
                  CreateRoot target ]) ++
               [Render root (app_tree stytch)])) in Hpre.
    apply prefix_of_snoc in Hpre. destruct Hpre as [Hall | Hshort].
    + exact Hall.
    + exfalso. apply (prefix_of_in _ _ _ Hshort) in Hin.
      simpl in Hin. intuition discriminate.
  - intros L pg r t Hin.
    destruct (replay (page_with L) imports pg) as [e | wi] eqn:Himports.
    { destruct (run_imports_throw _ _ _ Himports) as (_ & Hpre).
      apply (prefix_of_in _ _ _ Hpre) in Hin.
      simpl in Hin. intuition discriminate. }
    destruct (construct L public_token None wi) as [e | [stytch wj]]
      eqn:Hclient.
    { rewrite (run_page_main_no_client L pg wi e Himports Hclient) in Hin.
      cbn [calls] in Hin. simpl in Hin. intuition discriminate. }
    rewrite (run_page_main L pg wi wj stytch Himports Hclient) in Hin.
    destruct (getElementById (dom wj) mount_point_id) as [p |] eqn:Hget;
      cbn [calls] in Hin.
    + destruct (getElementById_some _ _ _ Hget) as (tag & kids & Hnode).
      assert (Hr : Render (mkRoot p) (app_tree stytch) = Render r t).
      { simpl in Hin. intuition discriminate. }
      injection Hr as <- <-.
      exists wi, stytch, wj, tag, kids. cbn [container]. auto.
    + exfalso. simpl in Hin. intuition discriminate.
Qed.

Lemma client_constructed_then_rendered_witness :
  In (Render (mkRoot [0; 1; 0]) (app_tree (mkClient public_token None)))
     (calls (run (page_with bundle) main plain_page)) /\
  exists wj tag kids,
    getElementById (dom wj) mount_point_id = Some [0; 1; 0] /\
    node_at (dom wj) [0; 1; 0] = Some (Element tag (Some mount_point_id) kids).
Proof.
  assert (Hin : In (Render (mkRoot [0; 1; 0])
                      (app_tree (mkClient public_token None)))
                   (calls (run (page_with bundle) main plain_page))).
  { simpl. intuition. }
  split; [exact Hin |].
  destruct (client_constructed_then_rendered (page_with bundle) plain_page)
    as (_ & Hpage).
  destruct (Hpage bundle plain_page _ _ Hin)
    as (wi & stytch & wj & tag & kids & _ & _ & _ & Hget & Hnode).
  exists wj, tag, kids. split; [exact Hget | exact Hnode].
Defined.
